(** * Command router of the mentat VS Code extension

    Shallow embedding of [mentat-vscode/src/utils/commands.ts]: the five
    functions [getFilepath], [includeResource], [excludeResource],
    [clearChat] and [eraseChatHistory], over a model of the JavaScript
    values a command handler receives and of the two outbound channels. *)

From Stdlib Require Import ZArith.
From stdpp Require Import gmap strings list.

Set Warnings "-register-all".
Set Default Proof Using "Type".

Local Open Scope string_scope.

(** ** JavaScript values and the three operators the router uses *)

Module Js.

(** The arguments are typed [any[]]: each one is an arbitrary structured
    value.  The model covers plain data: an object is its own data fields,
    without accessor properties, prototype overrides or proxies.  A number
    is kept as the bit pattern of its double; the router never inspects it. *)
Inductive value : Type :=
  | VUndefined
  | VNull
  | VBool (b : bool)
  | VNumber (bits : Z)
  | VString (s : string)
  | VArray (items : list value)
  | VObject (fields : gmap string value).

Inductive error : Type :=
  | TypeError (msg : string).

(** Completion of an expression or a call: a value, or a thrown error. *)
Inductive completion (A : Type) : Type :=
  | Normal (a : A)
  | Throw (e : error).
Global Arguments Normal {A} a.
Global Arguments Throw {A} e.

Definition is_undefined (v : value) : bool :=
  match v with VUndefined => true | _ => false end.

(** [v == null], the test behind [?.] and [??]. *)
Definition is_nullish (v : value) : bool :=
  match v with VUndefined | VNull => true | _ => false end.

(** [items.at(index)]: a negative index counts from the end, an index out
    of range gives [undefined]. *)
Definition array_at (items : list value) (index : Z) : value :=
  let len := Z.of_nat (length items) in
  let k := if (0 <=? index)%Z then index else (len + index)%Z in
  if ((k <? 0) || (len <=? k))%Z then VUndefined
  else default VUndefined (items !! Z.to_nat k).

(** [v.path] on plain data: reading a property of [null] or [undefined]
    throws; an object gives its own data field or [undefined]; no built-in
    prototype (Object, Array, String, Number, Boolean) has a property of
    that name. *)
Definition member_path (v : value) : completion value :=
  match v with
  | VUndefined => Throw (TypeError "Cannot read properties of undefined (reading 'path')")
  | VNull => Throw (TypeError "Cannot read properties of null (reading 'path')")
  | VObject fields => Normal (default VUndefined (fields !! "path"))
  | VBool _ | VNumber _ | VString _ | VArray _ => Normal VUndefined
  end.

(** [v?.member]: short-circuits to [undefined] on a nullish [v]. *)
Definition optional_chain (v : value) (member : value → completion value)
  : completion value :=
  if is_nullish v then Normal VUndefined else member v.

End Js.
Export Js.

(** ** The host: ambient editor state and the outbound channels *)

Record TextDocument : Type := { fileName : string }.

(** The source reads [activeTextEditor?.document?.fileName]: it guards
    against an editor without a document, so the model allows one. *)
Record TextEditor : Type := { document : option TextDocument }.

(** A [WebviewProvider] instance, identified by its reference. *)
Record WebviewProvider : Type := { provider_ref : nat }.

Inductive channel : Type :=
  | ServerStream                       (* server.sendStreamMessage *)
  | Webview (p : WebviewProvider).     (* webviewProvider.sendMessage *)

Record message : Type := {
  via : channel;
  target : value;
  intent : string
}.

Record host : Type := {
  activeTextEditor : option TextEditor;   (* vscode.window.activeTextEditor *)
  outbox : list message                   (* calls made so far, oldest first *)
}.

Global Instance WebviewProvider_eq_dec : EqDecision WebviewProvider.
Proof. solve_decision. Defined.
Global Instance channel_eq_dec : EqDecision channel.
Proof. solve_decision. Defined.

(** Commands run against the host; they may throw. *)
Definition Cmd (A : Type) : Type := host → completion A * host.

Definition cmd_ret {A} (a : A) : Cmd A := λ h, (Normal a, h).

Definition cmd_bind {A B} (f : A → Cmd B) (c : Cmd A) : Cmd B :=
  λ h, match c h with
       | (Normal a, h') => f a h'
       | (Throw e, h') => (Throw e, h')
       end.

Global Instance Cmd_ret : MRet Cmd := @cmd_ret.
Global Instance Cmd_bind : MBind Cmd := @cmd_bind.

Definition lift {A} (r : completion A) : Cmd A := λ h, (r, h).

Definition push (m : message) (h : host) : host :=
  {| activeTextEditor := activeTextEditor h; outbox := outbox h ++ [m] |}.

(** Messages a run added to the outbox, given the hosts before and after. *)
Definition emitted (before after : host) : list message :=
  drop (length (outbox before)) (outbox after).

(** Modelled from the spec: [server.sendStreamMessage] lives in [./server],
    outside the given source.  The spec gives only its boundary contract,
    [sendStreamMessage(target: Path | null, intent: string) -> void], an
    opaque send target; the call is recorded and returns. *)
Definition sendStreamMessage (tgt : value) (label : string) : Cmd unit :=
  λ h, (Normal tt, push {| via := ServerStream; target := tgt; intent := label |} h).

(** Modelled from the spec: [WebviewProvider.sendMessage] lives in
    [lib/WebviewProvider], outside the given source.  The spec gives only
    [sendMessage(target: Path | null, intent: string) -> void]; the call is
    recorded against the provider it was made on and returns. *)
Definition sendMessage (p : WebviewProvider) (tgt : value) (label : string) : Cmd unit :=
  λ h, (Normal tt, push {| via := Webview p; target := tgt; intent := label |} h).

(** [vscode.window.activeTextEditor?.document?.fileName] *)
Definition activeFileName : Cmd value :=
  λ h, (Normal match activeTextEditor h with
               | None => VUndefined
               | Some editor =>
                   match document editor with
                   | None => VUndefined
                   | Some doc => VString (fileName doc)
                   end
               end, h).

(** [l ?? r]: the right operand is evaluated only when the left one is
    nullish. *)
Definition nullish_coalesce (l : value) (r : Cmd value) : Cmd value :=
  if is_nullish l then r else mret l.

(** ** The router *)

Definition getFilepath (args : list value) : Cmd value :=
  p ← lift (optional_chain (array_at args 0) member_path);
  nullish_coalesce p activeFileName.

Definition includeResource (args : list value) : Cmd unit :=
  filePath ← getFilepath args;
  if is_undefined filePath then mret tt
  else sendStreamMessage filePath "include".

Definition excludeResource (args : list value) : Cmd unit :=
  filePath ← getFilepath args;
  if is_undefined filePath then mret tt
  else sendStreamMessage filePath "exclude".

Definition clearChat (args : list value) : Cmd unit :=
  sendStreamMessage VNull "clear_conversation".

Definition eraseChatHistory (webviewProvider : WebviewProvider)
  : list value → Cmd unit :=
  λ args, sendMessage webviewProvider VNull "vscode:eraseChatHistory".

(** The four handlers the extension registers, as one dispatch. *)
Inductive command : Type :=
  | IncludeResource
  | ExcludeResource
  | ClearChat
  | EraseChatHistory (webviewProvider : WebviewProvider).

Definition run (c : command) : list value → Cmd unit :=
  match c with
  | IncludeResource => includeResource
  | ExcludeResource => excludeResource
  | ClearChat => clearChat
  | EraseChatHistory webviewProvider => eraseChatHistory webviewProvider
  end.

(** ** Vocabulary of the specification *)

(** The first argument "carries a path field" when it is an object with a
    field of that name, whatever the field holds. *)
Definition carried_path (args : list value) : option value :=
  match args with
  | VObject fields :: _ => fields !! "path"
  | _ => None
  end.

(** The carried path is usable when it is neither [null] nor [undefined]. *)
Definition usable_path (args : list value) : option value :=
  match carried_path args with
  | Some v => if is_nullish v then None else Some v
  | None => None
  end.

(** The backing file of the active editor, when there is an active editor
    and it has a document. *)
Definition backing_file (h : host) : option string :=
  editor ← activeTextEditor h;
  doc ← document editor;
  Some (fileName doc).

(** An absent value is [undefined]; a backing file is a string. *)
Definition file_or_absent (f : option string) : value :=
  match f with
  | Some name => VString name
  | None => VUndefined
  end.

Definition with_intent (label : string) (m : message) : message :=
  {| via := via m; target := target m; intent := label |}.

(** "Identical except for the intent label": run [c] and rewrite the intent
    of every message the run added, keeping channel, target and order. *)
Definition relabel (label : string) (c : Cmd unit) : Cmd unit :=
  λ h, let '(r, h') := c h in
       (r, {| activeTextEditor := activeTextEditor h';
              outbox := take (length (outbox h)) (outbox h')
                        ++ (with_intent label <$> emitted h h') |}).

Definition server_message (tgt : value) (label : string) : message :=
  {| via := ServerStream; target := tgt; intent := label |}.

Definition webview_message (p : WebviewProvider) (tgt : value) (label : string)
  : message :=
  {| via := Webview p; target := tgt; intent := label |}.

(** ** Sample hosts and arguments *)

Definition no_editor : host := {| activeTextEditor := None; outbox := [] |}.

Definition editing (name : string) : host :=
  {| activeTextEditor := Some {| document := Some {| fileName := name |} |};
     outbox := [] |}.

Definition editor_without_document : host :=
  {| activeTextEditor := Some {| document := None |}; outbox := [] |}.

Definition with_path (v : value) : value := VObject {[ "path" := v ]}.

Definition sidebar : WebviewProvider := {| provider_ref := 1 |}.

(** ** Evaluation lemmas *)

Section Evaluation.

Implicit Types (args rest : list value) (v : value) (h : host).
Implicit Types (fields : gmap string value).

Lemma array_at_0_nil : array_at [] 0 = VUndefined.
Proof. reflexivity. Qed.

Lemma array_at_0_cons v rest : array_at (v :: rest) 0 = v.
Proof.
  unfold array_at. cbn [length]. rewrite Nat2Z.inj_succ.
  replace (0 <=? 0)%Z with true by reflexivity. cbn [Z.ltb Z.compare orb].
  destruct (Z.leb_spec (Z.succ (Z.of_nat (length rest))) 0) as [Hle|_]; [lia|].
  reflexivity.
Qed.

(** [args.at(0)?.path] never throws: the optional chain guards the member
    access, and the value is the carried path or [undefined]. *)
Lemma first_path_eval args :
  optional_chain (array_at args 0) member_path
  = Normal (default VUndefined (carried_path args)).
Proof.
  destruct args as [|first rest]; [reflexivity|].
  rewrite array_at_0_cons. by destruct first.
Qed.

Lemma activeFileName_eval h :
  activeFileName h = (Normal (file_or_absent (backing_file h)), h).
Proof.
  unfold activeFileName, backing_file.
  destruct (activeTextEditor h) as [[[doc|]]|]; reflexivity.
Qed.

Lemma getFilepath_eval args h :
  getFilepath args h
  = (Normal (default (file_or_absent (backing_file h)) (usable_path args)), h).
Proof.
  unfold getFilepath, mbind, Cmd_bind, cmd_bind, lift.
  rewrite first_path_eval. unfold usable_path, nullish_coalesce.
  destruct (carried_path args) as [v|]; simpl.
  - destruct (is_nullish v); [apply activeFileName_eval | reflexivity].
  - apply activeFileName_eval.
Qed.

Lemma usable_path_not_nullish args v :
  usable_path args = Some v → is_nullish v = false.
Proof.
  unfold usable_path. destruct (carried_path args) as [w|]; [|done].
  destruct (is_nullish w) eqn:E; [done|]. by intros [= <-].
Qed.

Lemma file_or_absent_not_null f : file_or_absent f ≠ VNull.
Proof. by destruct f. Qed.

(** The resolved path is never [null]: "absent" is exactly [undefined]. *)
Lemma getFilepath_not_null args h : (getFilepath args h).1 ≠ Normal VNull.
Proof.
  rewrite getFilepath_eval. cbn [fst]. intros [= H].
  destruct (usable_path args) as [v|] eqn:E; simpl in H.
  - apply usable_path_not_nullish in E. by subst v.
  - by apply file_or_absent_not_null in H.
Qed.

Lemma emitted_push h m : emitted h (push m h) = [m].
Proof. unfold emitted, push. cbn [outbox]. by rewrite drop_app_length. Qed.

Lemma emitted_same h : emitted h h = [].
Proof. unfold emitted. by rewrite drop_all. Qed.

End Evaluation.

(** ** Path resolution *)

Section ResolvePath.

Implicit Types (args rest : list value) (v : value) (h : host).

(** The cases of "no usable first argument", spelled out. *)
Lemma usable_path_None_cases args :
  usable_path args = None ↔
    args = []
    ∨ (∃ first rest, args = first :: rest ∧ ∀ fields, first ≠ VObject fields)
    ∨ (∃ fields rest, args = VObject fields :: rest ∧
         (fields !! "path" = None
          ∨ fields !! "path" = Some VNull
          ∨ fields !! "path" = Some VUndefined)).
Proof.
  split.
  - intros H. destruct args as [|first rest]; [by left|]. right.
    destruct first as [| | | | | |fields];
      try (left; eexists _, _; split; [reflexivity|congruence]).
    right. exists fields, rest. split; [reflexivity|].
    unfold usable_path in H; cbn [carried_path] in H.
    destruct (fields !! "path") as [[]|]; cbn in H; try discriminate; auto.
  - intros [->|[(first & rest & -> & Hno)|(fields & rest & -> & Hpath)]].
    + reflexivity.
    + destruct first; try reflexivity. by destruct (Hno fields).
    + unfold usable_path; cbn [carried_path].
      by destruct Hpath as [->|[->| ->]].
Qed.

Lemma backing_file_Some h name :
  backing_file h = Some name ↔
    ∃ editor doc, activeTextEditor h = Some editor
                  ∧ document editor = Some doc ∧ fileName doc = name.
Proof.
  unfold backing_file. split.
  - destruct (activeTextEditor h) as [editor|]; [|done]. cbn.
    destruct (document editor) as [doc|] eqn:E; [|done]. cbn.
    intros [= <-]. by exists editor, doc.
  - intros (editor & doc & -> & Hdoc & <-). cbn. by rewrite Hdoc.
Qed.

(** C1, as stated, fails: with [{path: null}] and an open editor the
    resolved path is the editor's file name, not the field's value. *)
Lemma getFilepath_carried_null_counterexample :
  carried_path [with_path VNull] = Some VNull
  ∧ (getFilepath [with_path VNull] (editing "/src/main.ts")).1
    = Normal (VString "/src/main.ts")
  ∧ ¬ (∀ args v h, carried_path args = Some v → (getFilepath args h).1 = Normal v).
Proof.
  split; [reflexivity|]. split; [reflexivity|].
  intros H. specialize (H [with_path VNull] VNull (editing "/src/main.ts") eq_refl).
  discriminate H.
Qed.

(** C1 (amended): when the first argument carries a "path" field whose
    value is neither null nor undefined, [getFilepath] returns exactly that
    value, whatever the active editor is, and leaves the host as it was. *)
Theorem getFilepath_carried_path args v h :
  carried_path args = Some v →
  is_nullish v = false →
  getFilepath args h = (Normal v, h).
Proof.
  intros Hcarried Hv. rewrite getFilepath_eval.
  unfold usable_path. by rewrite Hcarried, Hv.
Qed.

Lemma getFilepath_carried_path_witness :
  carried_path [with_path (VString "/a/b.py")] = Some (VString "/a/b.py")
  ∧ getFilepath [with_path (VString "/a/b.py")] (editing "/src/main.ts")
    = (Normal (VString "/a/b.py"), editing "/src/main.ts").
Proof.
  split; [reflexivity|].
  apply (getFilepath_carried_path [with_path (VString "/a/b.py")]); reflexivity.
Defined.

(** C5: with no usable first argument (no argument, a first argument that
    carries no "path" field, or one whose "path" is null or undefined),
    [getFilepath] returns the active editor's backing file name when an
    active editor with a document exists, and undefined otherwise. *)
Theorem getFilepath_fallback args h :
  usable_path args = None →
  getFilepath args h = (Normal (file_or_absent (backing_file h)), h)
  ∧ (∀ name, backing_file h = Some name → (getFilepath args h).1 = Normal (VString name))
  ∧ (backing_file h = None → (getFilepath args h).1 = Normal VUndefined).
Proof.
  intros Hnone. rewrite getFilepath_eval, Hnone. cbn.
  split; [reflexivity|]. split.
  - by intros name ->.
  - by intros ->.
Qed.

Lemma getFilepath_fallback_witness :
  getFilepath [] no_editor = (Normal VUndefined, no_editor)
  ∧ getFilepath [VString "x"] (editing "/src/main.ts")
    = (Normal (VString "/src/main.ts"), editing "/src/main.ts").
Proof.
  split.
  - apply (getFilepath_fallback [] no_editor). reflexivity.
  - apply (getFilepath_fallback [VString "x"] (editing "/src/main.ts")). reflexivity.
Defined.

(** C7: the function is declared to return [string | undefined], and the
    claim says so for every argument sequence; the code does not keep to
    it.  With [{path: true}] and no editor, [getFilepath] returns the
    boolean, which is neither a string nor undefined. *)
Theorem getFilepath_breaks_declared_type :
  getFilepath [with_path (VBool true)] no_editor = (Normal (VBool true), no_editor)
  ∧ VBool true ≠ VUndefined
  ∧ (∀ s, VBool true ≠ VString s)
  ∧ ¬ (∀ args h, ∃ v, getFilepath args h = (Normal v, h)
                      ∧ (v = VUndefined ∨ ∃ s, v = VString s)).
Proof.
  split; [reflexivity|]. split; [done|]. split; [done|].
  intros H. destruct (H [with_path (VBool true)] no_editor) as (v & Hrun & Hv).
  assert (v = VBool true) as -> by (vm_compute in Hrun; congruence).
  destruct Hv as [Hv|[s Hv]]; discriminate Hv.
Qed.

(** On plain-data arguments [getFilepath] returns normally, adds no message
    and leaves the host unchanged; it hands back the first argument's
    non-nullish "path" value when there is one, and otherwise a string or
    undefined. *)
Lemma getFilepath_total_pure args h :
  ∃ v, getFilepath args h = (Normal v, h)
       ∧ emitted h (getFilepath args h).2 = []
       ∧ (usable_path args = Some v
          ∨ (usable_path args = None ∧ (v = VUndefined ∨ ∃ s, v = VString s))).
Proof.
  rewrite getFilepath_eval. eexists. split; [reflexivity|].
  split; [apply emitted_same|].
  destruct (usable_path args) as [w|]; [by left|]. right. split; [done|].
  cbn. destruct (backing_file h) as [name|]; cbn; eauto.
Qed.

(** C8: a "path" field holding null is not returned; [getFilepath] falls
    back to the active editor's file name, or to undefined without one. *)
Theorem getFilepath_null_path args h :
  carried_path args = Some VNull →
  getFilepath args h = (Normal (file_or_absent (backing_file h)), h)
  ∧ (getFilepath args h).1 ≠ Normal VNull.
Proof.
  intros Hnull. split; [|apply getFilepath_not_null].
  rewrite getFilepath_eval. unfold usable_path. by rewrite Hnull.
Qed.

Lemma getFilepath_null_path_witness :
  (getFilepath [with_path VNull] (editing "/src/main.ts")
   = (Normal (VString "/src/main.ts"), editing "/src/main.ts")
   ∧ (getFilepath [with_path VNull] (editing "/src/main.ts")).1 ≠ Normal VNull)
  ∧ (getFilepath [with_path VNull] no_editor = (Normal VUndefined, no_editor)
     ∧ (getFilepath [with_path VNull] no_editor).1 ≠ Normal VNull).
Proof.
  split.
  - apply (getFilepath_null_path [with_path VNull] (editing "/src/main.ts")). reflexivity.
  - apply (getFilepath_null_path [with_path VNull] no_editor). reflexivity.
Defined.

(** When the carried path, if any, is a string, null or undefined, as the
    declared return type [string | undefined] expects, the result is a
    string or undefined. *)
Lemma getFilepath_string_or_absent args h :
  (∀ w, carried_path args = Some w → is_nullish w = true ∨ ∃ s, w = VString s) →
  ∃ v, getFilepath args h = (Normal v, h) ∧ (v = VUndefined ∨ ∃ s, v = VString s).
Proof.
  intros Hshape. rewrite getFilepath_eval. eexists. split; [reflexivity|].
  unfold usable_path. destruct (carried_path args) as [w|] eqn:Hcarried; cbn.
  - destruct (Hshape w eq_refl) as [->|[s ->]]; cbn; [|eauto].
    destruct (backing_file h); cbn; eauto.
  - destruct (backing_file h); cbn; eauto.
Qed.

End ResolvePath.

(** ** The handlers *)

Section Handlers.

Implicit Types (args rest : list value) (v : value) (h : host).
Implicit Types (label : string) (p : WebviewProvider).

(** The shape shared by [includeResource] and [excludeResource]. *)
Lemma guarded_send_eval label args h :
  (filePath ← getFilepath args;
   if is_undefined filePath then mret tt else sendStreamMessage filePath label) h
  = let v := default (file_or_absent (backing_file h)) (usable_path args) in
    (Normal tt, if is_undefined v then h else push (server_message v label) h).
Proof.
  unfold mbind, Cmd_bind, cmd_bind. rewrite getFilepath_eval. cbn zeta.
  by destruct (is_undefined _).
Qed.

Lemma emitted_guarded v label h :
  emitted h (if is_undefined v then h else push (server_message v label) h)
  = if is_undefined v then [] else [server_message v label].
Proof. destruct (is_undefined v); [apply emitted_same | apply emitted_push]. Qed.

Lemma backing_file_ext h1 h2 :
  activeTextEditor h1 = activeTextEditor h2 → backing_file h1 = backing_file h2.
Proof. unfold backing_file. by intros ->. Qed.

Lemma relabel_push label m (c : Cmd unit) h :
  c h = (Normal tt, push m h) →
  relabel label c h = (Normal tt, push (with_intent label m) h).
Proof.
  intros Hrun. unfold relabel. rewrite Hrun, emitted_push.
  unfold push; cbn [outbox activeTextEditor fmap list_fmap].
  by rewrite take_app_length.
Qed.

Lemma relabel_silent label (c : Cmd unit) h :
  c h = (Normal tt, h) → relabel label c h = (Normal tt, h).
Proof.
  intros Hrun. unfold relabel. rewrite Hrun, emitted_same.
  cbn [fmap list_fmap]. rewrite app_nil_r, firstn_all. by destruct h.
Qed.

(** C2: [includeResource] sends exactly one message, intent "include" with
    the resolved path, on the backend channel when [getFilepath] yields a
    value; when it yields undefined (it never yields null) the handler sends
    nothing, returns normally and leaves the host as it was. *)
Theorem includeResource_sends_iff_resolved args h :
  ∃ v, getFilepath args h = (Normal v, h)
       ∧ v ≠ VNull
       ∧ includeResource args h
         = (Normal tt,
            if is_undefined v then h else push (server_message v "include") h)
       ∧ emitted h (includeResource args h).2
         = if is_undefined v then [] else [server_message v "include"].
Proof.
  pose proof (getFilepath_not_null args h) as Hnn.
  unfold includeResource. rewrite guarded_send_eval.
  rewrite getFilepath_eval in Hnn |- *. cbn [fst snd] in *. cbn zeta.
  eexists. split; [reflexivity|]. split; [congruence|].
  split; [reflexivity|]. apply emitted_guarded.
Qed.

(** C3: [clearChat] sends exactly one message, intent "clear_conversation"
    with a null target, on the backend channel, whatever its arguments. *)
Theorem clearChat_sends_clear_conversation args h :
  clearChat args h = (Normal tt, push (server_message VNull "clear_conversation") h)
  ∧ emitted h (clearChat args h).2 = [server_message VNull "clear_conversation"].
Proof. split; [reflexivity|]. apply emitted_push. Qed.

(** C4: [eraseChatHistory] applied to a provider is a callback; run on any
    arguments it sends exactly one message, the erase-chat-history intent
    (spelled as the single token "vscode:eraseChatHistory" in the call)
    with a null target, through that provider's [sendMessage], and nothing
    through the backend channel. *)
Theorem eraseChatHistory_sends_via_provider p args h :
  eraseChatHistory p args h
  = (Normal tt, push (webview_message p VNull "vscode:eraseChatHistory") h)
  ∧ emitted h (eraseChatHistory p args h).2
    = [webview_message p VNull "vscode:eraseChatHistory"]
  ∧ Forall (λ m, via m ≠ ServerStream) (emitted h (eraseChatHistory p args h).2).
Proof.
  assert (emitted h (eraseChatHistory p args h).2
          = [webview_message p VNull "vscode:eraseChatHistory"]) as Hsent
    by apply emitted_push.
  split; [reflexivity|]. split; [exact Hsent|].
  rewrite Hsent. by repeat constructor.
Qed.

(** C6: [excludeResource] is [includeResource] with the intent relabelled:
    same outcome, same condition for sending, same target, same channel;
    the messages of the one carry "exclude", those of the other "include". *)
Theorem excludeResource_relabels_include args h :
  excludeResource args h = relabel "exclude" (includeResource args) h
  ∧ includeResource args h = relabel "include" (excludeResource args) h
  ∧ Forall (λ m, intent m = "include") (emitted h (includeResource args h).2)
  ∧ Forall (λ m, intent m = "exclude") (emitted h (excludeResource args h).2)
  ∧ via <$> emitted h (excludeResource args h).2
    = via <$> emitted h (includeResource args h).2
  ∧ target <$> emitted h (excludeResource args h).2
    = target <$> emitted h (includeResource args h).2.
Proof.
  pose proof (guarded_send_eval "include" args h) as Hinc.
  pose proof (guarded_send_eval "exclude" args h) as Hexc.
  fold (includeResource args) in Hinc. fold (excludeResource args) in Hexc.
  cbn zeta in Hinc, Hexc.
  destruct (is_undefined _) eqn:Hundef.
  - rewrite (relabel_silent _ _ _ Hinc), (relabel_silent _ _ _ Hexc), Hinc, Hexc.
    cbn [snd]. rewrite emitted_same. by repeat split.
  - rewrite (relabel_push _ _ _ _ Hinc), (relabel_push _ _ _ _ Hexc), Hinc, Hexc.
    cbn [snd]. rewrite !emitted_push. by repeat split; repeat constructor.
Qed.

(** C9: a "path" field holding the empty string is returned as it is,
    whatever the active editor (the right operand of [??] is not run), and
    [includeResource] then sends intent "include" with the empty path on
    the backend channel. *)
Theorem empty_path_is_sent args h :
  carried_path args = Some (VString "") →
  getFilepath args h = (Normal (VString ""), h)
  ∧ (∀ fallback : Cmd value,
       nullish_coalesce (VString "") fallback h = (Normal (VString ""), h))
  ∧ includeResource args h
    = (Normal tt, push (server_message (VString "") "include") h)
  ∧ emitted h (includeResource args h).2 = [server_message (VString "") "include"].
Proof.
  intros Hempty.
  assert (usable_path args = Some (VString "")) as Husable
    by (unfold usable_path; by rewrite Hempty).
  assert (includeResource args h
          = (Normal tt, push (server_message (VString "") "include") h)) as Hinc.
  { unfold includeResource. rewrite guarded_send_eval, Husable. reflexivity. }
  split; [by rewrite getFilepath_eval, Husable|].
  split; [reflexivity|]. split; [exact Hinc|].
  rewrite Hinc. apply emitted_push.
Qed.

Lemma empty_path_is_sent_witness :
  carried_path [with_path (VString "")] = Some (VString "")
  ∧ getFilepath [with_path (VString "")] (editing "/src/main.ts")
    = (Normal (VString ""), editing "/src/main.ts")
  ∧ emitted (editing "/src/main.ts")
      (includeResource [with_path (VString "")] (editing "/src/main.ts")).2
    = [server_message (VString "") "include"].
Proof.
  split; [reflexivity|].
  destruct (empty_path_is_sent [with_path (VString "")] (editing "/src/main.ts") eq_refl)
    as (Hget & _ & _ & Hsent).
  split; [exact Hget | exact Hsent].
Defined.

(** C10: every handler is deterministic in its arguments and the active
    editor: two runs with the same arguments on hosts with the same active
    editor, whatever was sent before, complete the same way and add the
    same sequence of messages (channel, target and intent). *)
Theorem run_deterministic (c : command) args h1 h2 :
  activeTextEditor h1 = activeTextEditor h2 →
  (run c args h1).1 = (run c args h2).1
  ∧ emitted h1 (run c args h1).2 = emitted h2 (run c args h2).2
  ∧ activeTextEditor (run c args h1).2 = activeTextEditor (run c args h2).2.
Proof.
  intros Heditor. pose proof (backing_file_ext _ _ Heditor) as Hfile.
  destruct c as [| | |p]; cbn [run].
  - unfold includeResource. rewrite !guarded_send_eval. cbn zeta. cbn [fst snd].
    rewrite !emitted_guarded, Hfile.
    by destruct (is_undefined _).
  - unfold excludeResource. rewrite !guarded_send_eval. cbn zeta. cbn [fst snd].
    rewrite !emitted_guarded, Hfile.
    by destruct (is_undefined _).
  - unfold clearChat, sendStreamMessage. cbn [fst snd]. by rewrite !emitted_push.
  - unfold eraseChatHistory, sendMessage. cbn [fst snd]. by rewrite !emitted_push.
Qed.

Lemma run_deterministic_witness :
  emitted (editing "/src/main.ts") (run IncludeResource [] (editing "/src/main.ts")).2
  = emitted (push (server_message VNull "clear_conversation") (editing "/src/main.ts"))
      (run IncludeResource []
         (push (server_message VNull "clear_conversation") (editing "/src/main.ts"))).2.
Proof.
  apply (run_deterministic IncludeResource [] (editing "/src/main.ts")
           (push (server_message VNull "clear_conversation") (editing "/src/main.ts"))).
  reflexivity.
Defined.

End Handlers.

(** ** Worked examples *)

Section Examples.

(** The optional chain is what keeps an empty invocation from throwing. *)
Example member_path_unguarded_throws :
  ∃ e, member_path (array_at [] 0) = Throw e.
Proof. eexists. reflexivity. Qed.

Example getFilepath_explicit_path :
  (getFilepath [with_path (VString "/a/b.py")] no_editor).1
  = Normal (VString "/a/b.py").
Proof. reflexivity. Qed.

Example includeResource_nothing_to_include :
  includeResource [] no_editor = (Normal tt, no_editor).
Proof. reflexivity. Qed.

Example includeResource_editor_without_document :
  includeResource [VNull] editor_without_document
  = (Normal tt, editor_without_document).
Proof. reflexivity. Qed.

Example excludeResource_active_file :
  outbox (excludeResource [] (editing "/src/main.ts")).2
  = [server_message (VString "/src/main.ts") "exclude"].
Proof. reflexivity. Qed.

Example array_at_last :
  array_at [VBool true; VString "last"] (-1) = VString "last".
Proof. reflexivity. Qed.

Example eraseChatHistory_sidebar :
  outbox (eraseChatHistory sidebar [VString "ignored"] no_editor).2
  = [webview_message sidebar VNull "vscode:eraseChatHistory"].
Proof. reflexivity. Qed.

End Examples.

(** ** Further properties of the handlers *)

Section Dispatch.

Implicit Types (args rest : list value) (v first : value) (h : host).
Implicit Types (c : command) (sent : list message).

Lemma emitted_app h editor sent :
  emitted h {| activeTextEditor := editor; outbox := outbox h ++ sent |} = sent.
Proof. unfold emitted. cbn [outbox]. by rewrite drop_app_length. Qed.

(** What one dispatch does to the host, handler by handler. *)
Lemma run_eval c args h :
  run c args h
  = (Normal tt,
     {| activeTextEditor := activeTextEditor h;
        outbox := outbox h ++
          match c with
          | IncludeResource =>
              let v := default (file_or_absent (backing_file h)) (usable_path args) in
              if is_undefined v then [] else [server_message v "include"]
          | ExcludeResource =>
              let v := default (file_or_absent (backing_file h)) (usable_path args) in
              if is_undefined v then [] else [server_message v "exclude"]
          | ClearChat => [server_message VNull "clear_conversation"]
          | EraseChatHistory p => [webview_message p VNull "vscode:eraseChatHistory"]
          end |}).
Proof.
  destruct c as [| | |p]; cbn [run]; try reflexivity.
  - unfold includeResource. rewrite guarded_send_eval. cbn zeta.
    destruct (is_undefined _); [|reflexivity].
    rewrite app_nil_r. by destruct h.
  - unfold excludeResource. rewrite guarded_send_eval. cbn zeta.
    destruct (is_undefined _); [|reflexivity].
    rewrite app_nil_r. by destruct h.
Qed.

Lemma usable_path_first_only first rest :
  usable_path (first :: rest) = usable_path [first].
Proof. by destruct first. Qed.

Lemma resolved_not_nullish args h :
  let v := default (file_or_absent (backing_file h)) (usable_path args) in
  is_undefined v = false → is_nullish v = false.
Proof.
  cbn zeta. destruct (usable_path args) as [w|] eqn:Husable; cbn.
  - intros _. by apply usable_path_not_nullish in Husable.
  - by destruct (backing_file h).
Qed.

(** X1: only the first argument counts.  Path resolution and every handler
    give the same result on [first :: rest] as on [[first]]. *)
Theorem only_first_argument_counts first rest h :
  getFilepath (first :: rest) h = getFilepath [first] h
  ∧ ∀ c, run c (first :: rest) h = run c [first] h.
Proof.
  split.
  - by rewrite !getFilepath_eval, usable_path_first_only.
  - intros c. rewrite !run_eval.
    by destruct c; rewrite ?usable_path_first_only.
Qed.

(** X3: what a receiver can rely on.  A message on the backend channel is
    either "include" or "exclude" with a target that is neither null nor
    undefined, or "clear_conversation" with a null target; a message on a
    webview provider is "vscode:eraseChatHistory" with a null target. *)
Theorem emitted_messages_well_formed c args h :
  Forall (λ m,
    match via m with
    | ServerStream =>
        ((intent m = "include" ∨ intent m = "exclude")
         ∧ is_nullish (target m) = false)
        ∨ (intent m = "clear_conversation" ∧ target m = VNull)
    | Webview p =>
        c = EraseChatHistory p
        ∧ intent m = "vscode:eraseChatHistory" ∧ target m = VNull
    end) (emitted h (run c args h).2).
Proof.
  rewrite run_eval. cbn [snd]. rewrite emitted_app.
  pose proof (resolved_not_nullish args h) as Hnn. cbn zeta in Hnn.
  destruct c as [| | |p]; cbn zeta.
  - destruct (is_undefined _); constructor; [|constructor].
    cbn. left. split; [by left | by apply Hnn].
  - destruct (is_undefined _); constructor; [|constructor].
    cbn. left. split; [by right | by apply Hnn].
  - constructor; [|constructor]. cbn. by right.
  - constructor; [|constructor]. by cbn.
Qed.

(** X4: [includeResource] and [excludeResource] stay silent exactly when
    the first argument carries no usable path and there is no active editor
    with a document. *)
Theorem silent_iff_nothing_to_resolve args h :
  (emitted h (includeResource args h).2 = []
   ↔ usable_path args = None ∧ backing_file h = None)
  ∧ (emitted h (excludeResource args h).2 = []
     ↔ usable_path args = None ∧ backing_file h = None).
Proof.
  pose proof (run_eval IncludeResource args h) as Hinc.
  pose proof (run_eval ExcludeResource args h) as Hexc.
  cbn [run] in Hinc, Hexc. rewrite Hinc, Hexc. cbn [snd].
  rewrite !emitted_app. cbn zeta.
  assert (is_undefined (default (file_or_absent (backing_file h)) (usable_path args))
          = true ↔ usable_path args = None ∧ backing_file h = None) as Hsilent.
  { destruct (usable_path args) as [w|] eqn:Husable; cbn.
    - apply usable_path_not_nullish in Husable.
      split; [|by intros [? _]]. by destruct w.
    - destruct (backing_file h); cbn; split; try done. by intros [_ ?]. }
  destruct (is_undefined _).
  - split; (split; [intros _; by apply Hsilent | done]).
  - split; (split; [done | intros Hno; by apply Hsilent in Hno]).
Qed.

(** X5: handlers compose without interfering.  Running one handler and then
    another returns normally, and the outbox receives the messages of the
    first followed by exactly the messages the second would have sent had
    it run alone on the initial host. *)
Theorem run_then_run c1 args1 c2 args2 h :
  (run c1 args1 ≫= λ _, run c2 args2) h
  = (Normal tt,
     {| activeTextEditor := activeTextEditor h;
        outbox := outbox h ++ emitted h (run c1 args1 h).2
                           ++ emitted h (run c2 args2 h).2 |}).
Proof.
  unfold mbind, Cmd_bind, cmd_bind.
  rewrite (run_eval c1 args1 h). cbn [snd]. rewrite emitted_app.
  match goal with |- run c2 args2 ?h1 = _ => set (mid := h1) end.
  assert (backing_file mid = backing_file h) as Hfile
    by (by apply backing_file_ext).
  rewrite (run_eval c2 args2 mid), (run_eval c2 args2 h), Hfile.
  cbn [snd]. rewrite emitted_app. subst mid. cbn [activeTextEditor outbox].
  by rewrite <- app_assoc.
Qed.

End Dispatch.
